(** * Question generation service: allocator, grouper, summary provider,
      artifact naming and orchestrator

    A shallow embedding of the Python sources

      - [main/app.py]                ([calculate_question_distribution],
                                      [generate_single_question_type_sync],
                                      [generate_questions], the audit writers)
      - [src/utils/helpers.py]       ([normalize_distribution])
      - [src/utils/summary_helper.py] ([retrieve_chapter_chunks],
                                      [generate_content_summary_sync])
      - [src/utils/utils_fib.py]     (the file name built by [generate_fill_in_blank])

    Conventions of the embedding.

    - A Python [float] is modelled by an exact rational of [Q].  The concrete
      inputs used below are small integers and dyadic fractions, on which every
      binary64 operation performed by the code is exact.
    - A Python [dict] is an association list in insertion order (the order
      Python iterates in); assigning to a key already present keeps its
      position and replaces its value.
    - [int(x)] truncates toward zero.
    - [sorted(..., reverse=True)] is stable: elements with equal keys keep
      their original relative order.
    - A call that may raise returns an [outcome]. *)

From Stdlib Require Import ZArith QArith Qround List String Ascii Bool Lia Lqa.
From Stdlib Require Import Permutation Sorted DecimalString DecimalPos DecimalZ Qabs.
Import ListNotations.

Open Scope list_scope.
Open Scope string_scope.
Open Scope Z_scope.

(** ** Python primitives *)

Module Py.

(** [int(x)] on a float: truncation toward zero. *)
Definition int (x : Q) : Z := Z.quot (Qnum x) (Zpos (Qden x)).

(** [str(n)] on an integer. *)
Definition str_of_int (n : Z) : string := NilZero.string_of_int (Z.to_int n).

(** [sep.join(parts)]. *)
Definition join (sep : string) (parts : list string) : string :=
  String.concat sep parts.

(** Truthiness of a string: the empty string is false. *)
Definition truthy (s : string) : bool := negb (String.eqb s "").

(** [sum(values)] over integers and over floats. *)
Definition sumZ (l : list Z) : Z := fold_right Z.add 0 l.

(** Insertion-ordered dictionaries with string keys. *)
Definition dict (V : Type) : Type := list (string * V).

Definition keys {V} (d : dict V) : list string := map fst d.
Definition values {V} (d : dict V) : list V := map snd d.

Fixpoint get {V} (k : string) (d : dict V) : option V :=
  match d with
  | [] => None
  | (k', v) :: r => if String.eqb k k' then Some v else get k r
  end.

(** [d[k] = v] *)
Fixpoint set {V} (k : string) (v : V) (d : dict V) : dict V :=
  match d with
  | [] => [(k, v)]
  | (k', v') :: r =>
      if String.eqb k k' then (k, v) :: r else (k', v') :: set k v r
  end.

(** [d[k] = f(d[k])] for a key that is present; nothing happens to the
    other entries. *)
Fixpoint update {V} (k : string) (f : V -> V) (d : dict V) : dict V :=
  match d with
  | [] => []
  | (k', v) :: r =>
      if String.eqb k k' then (k', f v) :: r else (k', v) :: update k f r
  end.

(** [x < y] on floats. *)
Definition ltb (x y : Q) : bool := negb (Qle_bool y x).

(** [sorted(l, key=..., reverse=True)] on (element, key) pairs: a stable
    sort by descending key.  An element is inserted in front of the first
    element whose key is not larger than its own, so that it stays in front
    of the later elements with an equal key. *)
Fixpoint insert_desc {A} (x : A * Q) (l : list (A * Q)) : list (A * Q) :=
  match l with
  | [] => [x]
  | y :: r => if ltb (snd x) (snd y) then y :: insert_desc x r else x :: y :: r
  end.

Definition sorted_desc {A} (l : list (A * Q)) : list (A * Q) :=
  fold_right insert_desc [] l.

(** Descending order of the sort keys. *)
Definition desc {A} (a b : A * Q) : Prop := (snd b <= snd a)%Q.

(** [x] occurs in [l] and [y] occurs somewhere after it. *)
Fixpoint before {A} (x y : A) (l : list A) : Prop :=
  match l with
  | [] => False
  | a :: r => (a = x /\ In y r) \/ before x y r
  end.


(** Outcome of a call that may raise; the exception is kept as [str(e)]. *)
Inductive outcome (A : Type) : Type :=
| Returned (a : A)
| Raised (msg : string).
Arguments Returned {A} a.
Arguments Raised {A} msg.

Definition bind {A B} (o : outcome A) (k : A -> outcome B) : outcome B :=
  match o with
  | Returned a => k a
  | Raised m => Raised m
  end.

(** [try: body  except Exception as e: handler(str(e))] *)
Definition try_except {A} (body : outcome A) (handler : string -> outcome A)
  : outcome A :=
  match body with
  | Returned a => Returned a
  | Raised m => handler m
  end.

End Py.

Notation "x <- c1 ;; c2" := (Py.bind c1 (fun x => c2))
  (at level 61, c1 at next level, right associativity).

(** A distribution: label to weight, as the request carries it. *)
Definition distribution : Type := Py.dict Q.

(** ** The allocator: [calculate_question_distribution] (main/app.py) *)

Module Allocator.

(** An entry of [fractional_distribution]. *)
Record entry : Type := mkEntry {
  e_question_type : string;
  e_difficulty : string;
  e_blooms_level : string;
  exact_count : Q;
  e_count : Z
}.

(** An entry of the returned [distribution]. *)
Record config : Type := mkConfig {
  question_type : string;
  difficulty : string;
  blooms_level : string;
  count : Z
}.

Definition combo_key (q_type diff blooms : string) : string :=
  q_type ++ "_" ++ diff ++ "_" ++ blooms.

(** The body of the innermost loop: the key and the entry of one
    combination. *)
Definition combo (total_questions : Z) (q d b : string * Q) : string * entry :=
  let exact := (inject_Z total_questions * snd q * snd d * snd b)%Q in
  (combo_key (fst q) (fst d) (fst b),
   mkEntry (fst q) (fst d) (fst b) exact (Py.int exact)).

(** The combinations in the order the three nested loops visit them. *)
Definition combos (total_questions : Z)
    (question_type_dist difficulty_dist blooms_dist : distribution)
  : list (string * entry) :=
  flat_map (fun q =>
    flat_map (fun d =>
      map (fun b => combo total_questions q d b) blooms_dist)
      difficulty_dist)
    question_type_dist.

(** [fractional_distribution] after the loops: every combination assigned
    to its key, in order. *)
Definition fractional_distribution (total_questions : Z)
    (question_type_dist difficulty_dist blooms_dist : distribution)
  : Py.dict entry :=
  fold_left (fun acc kv => Py.set (fst kv) (snd kv) acc)
    (combos total_questions question_type_dist difficulty_dist blooms_dist) [].

Definition current_total (fd : Py.dict entry) : Z :=
  Py.sumZ (map e_count (Py.values fd)).

Definition remainder (total_questions : Z) (fd : Py.dict entry) : Z :=
  total_questions - current_total fd.

(** The sort key: the fractional part [exact_count - count]. *)
Definition fractional_part (e : entry) : Q :=
  (exact_count e - inject_Z (e_count e))%Q.

(** The keys with their sort keys, in dictionary order. *)
Definition keyed (fd : Py.dict entry) : list (string * Q) :=
  map (fun kv => (fst kv, fractional_part (snd kv))) fd.

Definition ranking (fd : Py.dict entry) : list (string * Q) :=
  Py.sorted_desc (keyed fd).

Definition sorted_keys (fd : Py.dict entry) : list string :=
  map fst (ranking fd).

Definition incr (e : entry) : entry :=
  mkEntry (e_question_type e) (e_difficulty e) (e_blooms_level e)
    (exact_count e) (e_count e + 1).

(** [for i in range(remainder): if i < len(sorted_keys): ... += 1] *)
Definition distribute (rem : Z) (fd : Py.dict entry) : Py.dict entry :=
  fold_left (fun acc k => Py.update k incr acc)
    (firstn (Z.to_nat rem) (sorted_keys fd)) fd.

Definition clean (e : entry) : config :=
  mkConfig (e_question_type e) (e_difficulty e) (e_blooms_level e) (e_count e).

(** The last loop: drop the zero counts and the [exact_count] field. *)
Definition cleanup (fd : Py.dict entry) : Py.dict config :=
  map (fun kv => (fst kv, clean (snd kv)))
    (filter (fun kv => 0 <? e_count (snd kv)) fd).

Definition calculate_question_distribution (total_questions : Z)
    (question_type_dist difficulty_dist blooms_dist : distribution)
  : Py.dict config :=
  let fd := fractional_distribution total_questions
              question_type_dist difficulty_dist blooms_dist in
  cleanup (distribute (remainder total_questions fd) fd).

(** Sum of the returned counts. *)
Definition total_count (d : Py.dict config) : Z :=
  Py.sumZ (map count (Py.values d)).






End Allocator.

(** ** [normalize_distribution] (src/utils/helpers.py) *)

Module Helpers.


End Helpers.

(** ** The grouper: the grouping loops of [generate_questions] *)

Module Grouper.
Import Allocator.

(** [if q_type not in type_groups: type_groups[q_type] = []] then
    [type_groups[q_type].append(config)] *)
Definition add_config (groups : Py.dict (list config)) (c : config)
  : Py.dict (list config) :=
  match Py.get (question_type c) groups with
  | None => Py.set (question_type c) [c] groups
  | Some cs => Py.set (question_type c) (cs ++ [c])%list groups
  end.

Definition type_groups (question_dist : Py.dict config)
  : Py.dict (list config) :=
  fold_left add_config (Py.values question_dist) [].

Definition total_for_type (configs : list config) : Z :=
  Py.sumZ (map count configs).

(** [if k not in d: d[k] = 0] then [d[k] += w] *)
Definition add_weight (k : string) (w : Q) (d : distribution) : distribution :=
  match Py.get k d with
  | None => Py.set k (0 + w)%Q d
  | Some v => Py.set k (v + w)%Q d
  end.

Definition share (configs : list config) (c : config) : Q :=
  (inject_Z (count c) / inject_Z (total_for_type configs))%Q.

Definition difficulty_dist_for_type (configs : list config) : distribution :=
  fold_left (fun acc c => add_weight (difficulty c) (share configs c) acc)
    configs [].

Definition blooms_dist_for_type (configs : list config) : distribution :=
  fold_left (fun acc c => add_weight (blooms_level c) (share configs c) acc)
    configs [].



(** A group that is not empty and whose entries all satisfy [P] and carry
    the group's kind. *)
Definition group_of (P : config -> Prop) (g : string * list config) : Prop :=
  snd g <> [] /\ Forall (fun c => P c /\ question_type c = fst g) (snd g).

(** The labels of an entry occur in the three input distributions. *)
Definition labelled (qd dd bd : distribution) (c : config) : Prop :=
  In (question_type c) (Py.keys qd)
  /\ In (difficulty c) (Py.keys dd)
  /\ In (blooms_level c) (Py.keys bd).


End Grouper.

(** ** The shared summary: src/utils/summary_helper.py *)

Definition newline : string := String (ascii_of_nat 10) "".

Module SummaryHelper.
Import Py.

Section Retrieval.
(** The OpenSearch calls are collaborators: building the query
    ([find_title_index] inside it talks to the service and may raise) and
    running it ([execute_search] returns [None] when the search itself
    fails and may raise while it builds its client). *)
Variable query : Type.
Variable create_query_body : string -> nat -> outcome query.
Variable execute_search : query -> outcome (option string).

Definition content_truncated : string :=
  newline ++ "[Content truncated due to size limitations]".

Definition retrieve_chapter_chunks (chapter_name : string)
    (max_chunks max_chars : nat) : outcome (option string) :=
  if negb (truthy chapter_name) then
    Raised "Chapter name must be provided."
  else
    query_body <- create_query_body chapter_name max_chunks ;;
    chapter_content <- execute_search query_body ;;
    Returned
      (match chapter_content with
       | Some s =>
           if truthy s && (max_chars <? String.length s)%nat
           then Some (substring 0 max_chars s ++ content_truncated)
           else Some s
       | None => None
       end).

(** The defaults [max_chunks=200] and [max_chars=100000]. *)
Definition default_max_chunks : nat := 200.
Definition default_max_chars : nat := 100 * 1000.

Definition no_content : string :=
  "No content available for the specified chapter.".

Definition summary_truncated : string :=
  newline ++ "[Summary truncated - full content available for question generation]".

Definition error_prefix : string := "Error retrieving content for chapter".

(** [tenant_id], [learning_objectives] and [all_keys] are not used by the
    body (the objectives are only printed). *)
Definition generate_content_summary_sync (chapter_id : string)
  : outcome string :=
  try_except
    (chapter_content <- retrieve_chapter_chunks chapter_id default_max_chunks default_max_chars ;;
     match chapter_content with
     | None => Returned no_content
     | Some s =>
         if negb (truthy s) then Returned no_content
         else
           let summary_length := Nat.min 2000 (String.length s) in
           let content_summary := substring 0 summary_length s in
           if (summary_length <? String.length s)%nat
           then Returned (content_summary ++ summary_truncated)
           else Returned content_summary
     end)
    (fun e =>
       Returned (error_prefix ++ " " ++ chapter_id ++ ": " ++ e)).

End Retrieval.

End SummaryHelper.

(** ** Artifact names: [generate_single_question_type_sync] (main/app.py)
       and [generate_fill_in_blank] (src/utils/utils_fib.py) *)

(** [Optional[Union[str, List[str]]]] *)
Inductive objectives : Type :=
| LoNone
| LoStr (s : string)
| LoList (l : list string).

Module Naming.

Definition truthy_objectives (lo : objectives) : bool :=
  match lo with
  | LoNone => false
  | LoStr s => Py.truthy s
  | LoList l => negb (Nat.eqb (List.length l) 0)
  end.

(** [f"{label}{int(prop*100)}"] *)
Definition percent (prop : Q) : Z := Py.int (prop * 100)%Q.

Definition dist_item (kv : string * Q) : string :=
  fst kv ++ Py.str_of_int (percent (snd kv)).

(** ["_".join([f"{diff}{int(prop*100)}" for diff, prop in d.items()])] *)
Definition dist_str (d : distribution) : string :=
  Py.join "_" (map dist_item d).

Definition obj_str (lo : objectives) : string :=
  "lo" ++ match lo with
          | LoList l => Py.join "_" l
          | LoStr s => s
          | LoNone => "None"
          end.

(** [learning_objectives and all_keys and 'learning_objectives' in all_keys] *)
Definition with_objectives (lo : objectives) (all_keys : list string) : bool :=
  truthy_objectives lo
  && negb (Nat.eqb (List.length all_keys) 0)
  && existsb (String.eqb "learning_objectives") all_keys.

Definition filename_parts (chapter_id : string) (lo : objectives)
    (all_keys : list string) (difficulty_distribution blooms_distribution : distribution)
  : list string :=
  ([chapter_id; dist_str difficulty_distribution; dist_str blooms_distribution]
   ++ (if with_objectives lo all_keys then [obj_str lo] else []))%list.

(** The suffix chosen by the [if]/[elif] chain; no branch is taken for any
    other kind and [file_name] stays unbound. *)
Definition kind_suffix (question_type : string) : option string :=
  if String.eqb question_type "mcq" then Some "_mcqs.json"
  else if String.eqb question_type "fib" then Some "_fib.json"
  else if String.eqb question_type "tf" then Some "_tf.json"
  else None.

Definition file_name (question_type chapter_id : string) (lo : objectives)
    (all_keys : list string) (difficulty_distribution blooms_distribution : distribution)
  : option string :=
  match kind_suffix question_type with
  | Some suffix =>
      Some (Py.join "_" (filename_parts chapter_id lo all_keys
                           difficulty_distribution blooms_distribution)
            ++ suffix)
  | None => None
  end.

(** The name [generate_fill_in_blank] writes its file under. *)
Definition fib_file_name (chapter_id : string) (lo : objectives)
    (all_keys : list string) (difficulty_distribution blooms_distribution : distribution)
  : string :=
  Py.join "_" (filename_parts chapter_id lo all_keys
                 difficulty_distribution blooms_distribution)
  ++ "_fib.json".


End Naming.

(** ** The orchestrator: [generate_single_question_type_sync] and
       [generate_questions] (main/app.py) *)

Module Orchestrator.
Import Py Allocator.

(** A generated question, as far as the audit reads it. *)
Record question : Type := mkQuestion {
  question_id : string;
  q_difficulty : string;
  q_blooms_level : string
}.

(** The JSON object a generator writes: [{"response": [...]}]. *)
Definition question_data : Type := dict (list question).

(** The tuple a worker returns:
    [(question_type, file_name, question_data, error)]. *)
Record worker_result : Type := mkResult {
  r_question_type : string;
  r_file_name : option string;
  r_question_data : option question_data;
  r_error : option string
}.

Record QuestionRequest : Type := mkRequest {
  contentId : string;
  chapter_id : string;
  learning_objectives : objectives;
  total_questions : Z;
  question_type_distribution : distribution;
  difficulty_distribution : distribution;
  blooms_taxonomy_distribution : distribution;
  session_id : string
}.

(** The response; the request fields it echoes are kept as the request, and
    the message (it embeds wall-clock timings) is left out. *)
Record QuestionResponse : Type := mkResponse {
  status : string;
  echo : QuestionRequest;
  files_generated : list (option string);
  data : dict (option question_data)
}.

Inductive http_result : Type :=
| Ok200 (response : QuestionResponse)
| Error500 (detail : string).

(** What the coordinator does that is visible outside it, in program
    order. *)
Inductive event : Type :=
| ConversationLogged (session : string)
| SummaryRequested (chapter : string)
| WorkerSubmitted (kind : string) (configs : list config) (summary : string)
    (difficulty_dist blooms_dist : distribution)
| HistoryWritten (status error_message : string)
    (files_generated : list (option string))
    (response_data : dict (option question_data))
| ResponseLogged (files_generated : list (option string))
| QuestionLogged (kind : string) (index : nat) (q : question).

(** The arguments of a generator call. *)
Record generator_call : Type := mkCall {
  g_chapter_id : string;
  g_learning_objectives : objectives;
  g_all_keys : list string;
  g_num_questions : Z;
  g_difficulty_distribution : distribution;
  g_blooms_taxonomy_distribution : distribution;
  g_content_summary : string
}.

(** The collaborators and the process-wide state.  The tenant identifier
    looked up in [content_tenant_mapping] is passed along and stored but
    decides nothing, and is left out. *)
Record environment : Type := mkEnv {
  query : Type;
  create_query_body : string -> nat -> outcome query;
  execute_search : query -> outcome (option string);
  (** [generate_mcqs], [generate_fill_in_blank], [generate_true_false],
      by kind *)
  generate : string -> generator_call -> outcome string;
  (** [json.load] of the file a generator wrote *)
  load_json : string -> outcome question_data;
  (** [metadata_keys] of src/utils/constants *)
  metadata_keys : list string;
  (** whether each DynamoDB table was reached at start-up *)
  history_table : bool;
  conversation_table : bool;
  events_table : bool
}.

Section WithEnvironment.
Variable env : environment.

Definition content_summary_of (chapter : string) : outcome string :=
  SummaryHelper.generate_content_summary_sync (query env)
    (create_query_body env) (execute_search env) chapter.

Definition failed (kind msg : string) : worker_result :=
  mkResult kind None None (Some msg).

(** [str(e)] of the [UnboundLocalError] raised by [open(file_name)] when
    no branch has bound [file_name] (the wording is the interpreter's). *)
Definition unbound_file_name : string :=
  "local variable 'file_name' referenced before assignment".

Definition generate_single_question_type_sync (kind : string)
    (configs : list config) (content_summary : string) (chapter : string)
    (lo : objectives) (difficulty_dist blooms_dist : distribution)
  : worker_result :=
  let available_keys := metadata_keys env in
  let total_for_type := Py.sumZ (map count configs) in
  let call := mkCall chapter lo available_keys total_for_type
                difficulty_dist blooms_dist content_summary in
  let generated :=
    match Naming.kind_suffix kind with
    | Some _ => generate env kind call
    | None => Returned ""
    end in
  match generated with
  | Raised e => failed kind e
  | Returned _ =>
      match Naming.file_name kind chapter lo available_keys
              difficulty_dist blooms_dist with
      | None => failed kind unbound_file_name
      | Some name =>
          match load_json env name with
          | Raised e => failed kind e
          | Returned d => mkResult kind (Some name) (Some d) None
          end
      end
  end.

(** One task per kind of [type_groups], in its order. *)
Record task : Type := mkTask {
  t_kind : string;
  t_configs : list config;
  t_difficulty_dist : distribution;
  t_blooms_dist : distribution
}.

Definition tasks_of (groups : dict (list config)) : list task :=
  map (fun g => mkTask (fst g) (snd g)
                  (Grouper.difficulty_dist_for_type (snd g))
                  (Grouper.blooms_dist_for_type (snd g)))
    groups.

Definition run_task (r : QuestionRequest) (content_summary : string)
    (t : task) : worker_result :=
  generate_single_question_type_sync (t_kind t) (t_configs t)
    content_summary (chapter_id r) (learning_objectives r)
    (t_difficulty_dist t) (t_blooms_dist t).

Definition submitted (content_summary : string) (t : task) : event :=
  WorkerSubmitted (t_kind t) (t_configs t) content_summary
    (t_difficulty_dist t) (t_blooms_dist t).

(** The accumulators [files_generated] and [all_question_data]. *)
Record accumulators : Type := mkAcc {
  acc_files : list (option string);
  acc_data : dict (option question_data)
}.

(** [if error:] on an optional string *)
Definition truthy_error (e : option string) : bool :=
  match e with
  | Some m => truthy m
  | None => false
  end.

(** [files_generated.append(file_name)] and
    [all_question_data[question_type] = question_data] *)
Definition record_result (acc : accumulators) (r : worker_result)
  : accumulators :=
  mkAcc (acc_files acc ++ [r_file_name r])%list
        (Py.set (r_question_type r) (r_question_data r) (acc_data acc)).

(** [Exception(f"Error in {question_type}: {error}")] *)
Definition tagged_error (r : worker_result) : string :=
  "Error in " ++ r_question_type r ++ ": "
  ++ match r_error r with Some m => m | None => "" end.

(** The loop over [results]: the first truthy error raises and leaves the
    accumulators as they are at that point.  (A worker catches every
    exception, so no result is an exception object.) *)
Fixpoint process_results (results : list worker_result) (acc : accumulators)
  : accumulators * option string :=
  match results with
  | [] => (acc, None)
  | r :: rest =>
      if truthy_error (r_error r) then (acc, Some (tagged_error r))
      else process_results rest (record_result acc r)
  end.

(** [log_question_events]: one event per question under ["response"]. *)
Definition log_question_events (kind : string) (d : option question_data)
  : list event :=
  match d with
  | None => []
  | Some qd =>
      if Nat.eqb (List.length qd) 0 || negb (events_table env) then []
      else
        let questions :=
          match Py.get "response" qd with Some qs => qs | None => [] end in
        map (fun iq => QuestionLogged kind (fst iq) (snd iq))
          (combine (seq 0 (List.length questions)) questions)
  end.

Definition when (b : bool) (l : list event) : list event :=
  if b then l else [].

(** [generate_questions]: the events in program order and the HTTP
    outcome. *)
Definition generate_questions (sourceId : string) (r : QuestionRequest)
  : list event * http_result :=
  let logged := when (conversation_table env) [ConversationLogged (session_id r)] in
  match content_summary_of (chapter_id r) with
  | Raised e =>
      (logged ++ [SummaryRequested (chapter_id r)]
         ++ when (history_table env) [HistoryWritten "error" e [] []],
       Error500 ("Error generating questions: " ++ e))%list
  | Returned content_summary =>
      let question_dist :=
        calculate_question_distribution (total_questions r)
          (question_type_distribution r) (difficulty_distribution r)
          (blooms_taxonomy_distribution r) in
      let tasks := tasks_of (Grouper.type_groups question_dist) in
      let results := map (run_task r content_summary) tasks in
      let before :=
        (logged ++ [SummaryRequested (chapter_id r)]
           ++ map (submitted content_summary) tasks)%list in
      match process_results results (mkAcc [] []) with
      | (acc, Some error_message) =>
          (before
             ++ when (history_table env)
                  [HistoryWritten "error" error_message
                     (acc_files acc) (acc_data acc)],
           Error500 ("Error generating questions: " ++ error_message))%list
      | (acc, None) =>
          (before
             ++ when (history_table env)
                  [HistoryWritten "success" "" (acc_files acc) (acc_data acc)]
             ++ when (events_table env) [ResponseLogged (acc_files acc)]
             ++ flat_map (fun kd => log_question_events (fst kd) (snd kd))
                  (acc_data acc),
           Ok200 (mkResponse "success" r (acc_files acc) (acc_data acc)))%list
      end
  end.

End WithEnvironment.




Definition allocation (r : QuestionRequest) : dict config :=
  calculate_question_distribution (total_questions r)
    (question_type_distribution r) (difficulty_distribution r)
    (blooms_taxonomy_distribution r).

Definition tasks (r : QuestionRequest) : list task :=
  tasks_of (Grouper.type_groups (allocation r)).



End Orchestrator.

(** ** Concrete requests used as witnesses and counterexamples

    Every weight is an integer or a dyadic fraction, so each product and sum
    the code forms on them is exact in binary64 as well. *)

Module Examples.
Import Py Allocator Orchestrator.

Definition two_kinds : distribution := [("mcq", 1 # 2); ("fib", 1 # 2)]%Q.

Definition basic_only : distribution := [("basic", 1%Q)].
Definition remember_only : distribution := [("remember", 1%Q)].


(** The same mapping written in two orders. *)
Definition a_then_b : distribution := [("a", 1 # 2); ("b", 1 # 2)]%Q.
Definition b_then_a : distribution := [("b", 1 # 2); ("a", 1 # 2)]%Q.


Definition sample_question : question := mkQuestion "q-1" "basic" "remember".
Definition sample_data : question_data := [("response", [sample_question])].

(** Retrieval works and the fill-in-the-blank generator raises. *)
Definition fib_fails : environment :=
  mkEnv unit
    (fun _ _ => Returned tt)
    (fun _ => Returned (Some "chapter text"))
    (fun kind _ => if String.eqb kind "fib" then Raised "boom" else Returned "")
    (fun _ => Returned sample_data)
    [] true true true.


(** Two questions, one per kind. *)
Definition request_two_kinds : QuestionRequest :=
  mkRequest "content" "ch01" LoNone 2
    two_kinds basic_only remember_only "session".

End Examples.

(** ** The second allocator: [validate_distributions] and
       [calculate_question_counts] (src/utils/helpers.py) *)

Module HelperCounts.
Import Py.













End HelperCounts.

(** ** The fill-in-the-blank generator: [create_question_sequence] and
       [generate_fill_in_blank] (src/utils/utils_fib.py) *)

Module FillInBlank.
Import Py.

(** [round(x)] on a float: to the nearest integer, a tie to the even one. *)
Definition round (x : Q) : Z :=
  let f := Qfloor x in
  let r := (x - inject_Z f)%Q in
  if ltb r (1 # 2) then f
  else if ltb (1 # 2) r then f + 1
  else if Z.even f then f else f + 1.

(** An entry of [question_breakdown]. *)
Record specs : Type := mkSpecs {
  s_difficulty : string;
  s_blooms_level : string;
  s_count : Z
}.

(** The combinations in loop order with [int(round(num * d * b))]. *)
Definition rounded (num_questions : Z)
    (difficulty_distribution blooms_taxonomy_distribution : distribution)
  : list (string * specs) :=
  flat_map (fun d =>
    map (fun b =>
           (fst d ++ "_" ++ fst b,
            mkSpecs (fst d) (fst b)
              (round (inject_Z num_questions * snd d * snd b)%Q)))
      blooms_taxonomy_distribution)
    difficulty_distribution.

(** [question_breakdown] after the loops: the positive counts only. *)
Definition question_breakdown (num_questions : Z)
    (difficulty_distribution blooms_taxonomy_distribution : distribution)
  : dict specs :=
  fold_left (fun acc kv => set (fst kv) (snd kv) acc)
    (filter (fun kv => 0 <? s_count (snd kv))
       (rounded num_questions difficulty_distribution
          blooms_taxonomy_distribution))
    [].

Definition total_calculated (breakdown : dict specs) : Z :=
  sumZ (map s_count (values breakdown)).

(** [max(keys, key=count)] keeps the first of the largest. *)
Fixpoint max_from (best : string) (best_count : Z) (l : dict specs) : string :=
  match l with
  | [] => best
  | (k, s) :: r =>
      if best_count <? s_count s then max_from k (s_count s) r
      else max_from best best_count r
  end.

(** [str(e)] of the [ValueError] of [max] on no key (the wording is the
    interpreter's). *)
Definition max_error : string := "max() arg is an empty sequence".

Definition largest_key (breakdown : dict specs) : outcome string :=
  match breakdown with
  | [] => Raised max_error
  | (k, s) :: r => Returned (max_from k (s_count s) r)
  end.

Definition add_count (n : Z) (s : specs) : specs :=
  mkSpecs (s_difficulty s) (s_blooms_level s) (s_count s + n).

(** "Adjust to ensure total matches exactly": the difference goes to the
    largest group. *)
Definition adjust (num_questions : Z) (breakdown : dict specs)
  : outcome (dict specs) :=
  if total_calculated breakdown =? num_questions then Returned breakdown
  else
    largest <- largest_key breakdown ;;
    Returned (update largest
                (add_count (num_questions - total_calculated breakdown))
                breakdown).

(** [create_question_sequence]: every combination [count] times, in order
    ([range] of a negative count is empty). *)
Definition create_question_sequence (breakdown : dict specs)
  : list (string * string) :=
  flat_map (fun kv =>
              repeat (s_difficulty (snd kv), s_blooms_level (snd kv))
                (Z.to_nat (s_count (snd kv))))
    breakdown.

(** The questions written: one per index below
    [min(num_questions, len(question_sequence))]. *)
Definition responses (uuid : nat -> string) (num_questions : Z)
    (question_sequence : list (string * string))
  : list Orchestrator.question :=
  let n := Z.to_nat (Z.min num_questions
                       (Z.of_nat (List.length question_sequence))) in
  map (fun i =>
         let pair := nth i question_sequence ("", "") in
         Orchestrator.mkQuestion (uuid i) (fst pair) (snd pair))
    (seq 0 n).

Section Generator.
(** [retrieve_chapter_chunks] of the same file and the identifiers drawn by
    [uuid.uuid4] are collaborators. *)
Variable retrieve : string -> outcome (option string).
Variable uuid : nat -> string.

(** The summary used: the one given, or the start of the retrieved content. *)
Definition summary_for (chapter_id : string) (content_summary : option string)
  : outcome string :=
  match content_summary with
  | Some s => Returned s
  | None =>
      chapter_content <- retrieve chapter_id ;;
      match chapter_content with
      | None => Raised ("No content found for chapter: " ++ chapter_id)
      | Some c =>
          if negb (truthy c)
          then Raised ("No content found for chapter: " ++ chapter_id)
          else if (2000 <? String.length c)%nat
               then Returned (substring 0 2000 c ++ "...")
               else Returned c
      end
  end.

(** [generate_fill_in_blank]: the name of the file written and the object
    written to it. *)
Definition generate_fill_in_blank (chapter_id : string) (lo : objectives)
    (all_keys : list string) (num_questions : Z)
    (difficulty_distribution blooms_taxonomy_distribution : distribution)
    (content_summary : option string)
  : outcome (string * Orchestrator.question_data) :=
  _ <- summary_for chapter_id content_summary ;;
  breakdown <- adjust num_questions
                 (question_breakdown num_questions difficulty_distribution
                    blooms_taxonomy_distribution) ;;
  let file_name :=
    Naming.fib_file_name chapter_id lo all_keys difficulty_distribution
      blooms_taxonomy_distribution in
  Returned (file_name,
            [("response",
              responses uuid num_questions
                (create_question_sequence breakdown))]).

End Generator.


End FillInBlank.

(** ** The audit items: [log_event] and [log_question_events] (main/app.py) *)

Module Audit.
Import Py.

Section Items.
(** The JSON values found in a question are left open. *)
Variable json : Type.

(** The values stored in an item. *)
Inductive value : Type :=
| Str (s : string)
| Int (n : Z)
| Strs (l : list string)
| Json (j : json).

(** The fields [log_event] always writes; [id] is the [str(uuid.uuid4())]
    drawn for the item. *)
Definition base_item (event_type session_id source_id status timestamp
    tenant_id id : string) : dict value :=
  [("PK", Str session_id); ("SK", Str timestamp); ("event", Str event_type);
   ("id", Str id); ("sender", Str "SYSTEM"); ("tenantId", Str tenant_id);
   ("timestamp", Str timestamp); ("sourceID", Str source_id);
   ("status", Str status); ("conversationID", Str session_id)].

(** [if key not in event_item: event_item[key] = value] *)
Definition add_metadata (item : dict value) (kv : string * value) : dict value :=
  match get (fst kv) item with
  | Some _ => item
  | None => set (fst kv) (snd kv) item
  end.

(** The item [log_event] hands to [put_item]; [data] is [json.dumps(data)]
    when [data] is given and truthy, [metadata] is empty when none is
    given. *)
Definition event_item (event_type session_id source_id status timestamp
    tenant_id id : string) (data : option string)
    (metadata : dict value) : dict value :=
  let item := base_item event_type session_id source_id status timestamp
                tenant_id id in
  let item := match data with
              | Some d => set "data" (Str d) item
              | None => item
              end in
  fold_left add_metadata metadata item.

(** [log_event]: the items handed to [put_item], none when the events table
    is not there. *)
Definition log_event (events_table : bool) (event_type session_id source_id
    status timestamp tenant_id id : string) (data : option string)
    (metadata : dict value) : list (dict value) :=
  if events_table
  then [event_item event_type session_id source_id status timestamp tenant_id
          id data metadata]
  else [].

(** [question.get(key, 'unknown')] *)
Definition field (key : string) (question : dict json) : value :=
  match get key question with Some v => Json v | None => Str "unknown" end.

(** [f"{timestamp_base}_{question_type}_{i}"] *)
Definition question_timestamp (timestamp_base question_type : string)
    (i : nat) : string :=
  timestamp_base ++ "_" ++ question_type ++ "_" ++ str_of_int (Z.of_nat i).

Definition question_metadata (question_type : string) (i : nat)
    (question : dict json) : dict value :=
  [("questionType", Str question_type); ("questionIndex", Int (Z.of_nat i));
   ("questionId", field "question_id" question);
   ("difficulty", field "difficulty" question);
   ("bloomsLevel", field "blooms_level" question)].

(** [json.dumps] (the questions were read from a JSON file) and the
    identifiers drawn by [uuid.uuid4] are collaborators. *)
Variable dumps : dict json -> string.
Variable uuid : string -> nat -> string.

(** The loop of [log_question_events] over [enumerate(questions)]. *)
Definition question_items (events_table : bool)
    (session_id source_id question_type : string)
    (questions : list (dict json)) (timestamp_base tenant_id : string)
  : list (dict value) :=
  flat_map (fun iq =>
         let i := fst iq in
         let question := snd iq in
         log_event events_table "QUESTION_GENERATED" session_id source_id
           "success" (question_timestamp timestamp_base question_type i)
           tenant_id (uuid question_type i)
           (if Nat.eqb (List.length question) 0 then None
            else Some (dumps question))
           (question_metadata question_type i question))
    (combine (seq 0 (List.length questions)) questions).

(** [log_question_events]: the items handed to [put_item] for the questions
    of one kind, in order. *)
Definition log_question_events (events_table : bool)
    (session_id source_id question_type : string)
    (question_data : option (dict (list (dict json))))
    (timestamp_base tenant_id : string) : list (dict value) :=
  match question_data with
  | None => []
  | Some qd =>
      if Nat.eqb (List.length qd) 0 || negb events_table then []
      else
        let questions :=
          match get "response" qd with Some qs => qs | None => [] end in
        question_items events_table session_id source_id question_type
          questions timestamp_base tenant_id
  end.

(** The loop of [generate_questions] over [all_question_data.items()]. *)
Definition log_all_question_events (events_table : bool)
    (session_id source_id : string)
    (all_question_data : dict (option (dict (list (dict json)))))
    (timestamp_base tenant_id : string) : list (dict value) :=
  flat_map (fun kd =>
              log_question_events events_table session_id source_id (fst kd)
                (snd kd) timestamp_base tenant_id)
    all_question_data.

End Items.

Arguments Str {json} s.
Arguments Int {json} n.
Arguments Strs {json} l.
Arguments Json {json} j.

End Audit.

(** ** Notions used to state the further properties *)

Module Notions.
Import Py Allocator.

(** An entry sits under the key of its own labels. *)
Definition keyed_by_labels (kv : string * entry) : Prop :=
  fst kv = combo_key (e_question_type (snd kv)) (e_difficulty (snd kv))
             (e_blooms_level (snd kv)).




End Notions.

(** ** More concrete inputs *)

Module MoreExamples.
Import Py Orchestrator.




(** The questions of a request with two multiple-choice questions, one
    fill-in-the-blank question and a kind without data. *)
Definition audited : Py.dict (option (Py.dict (list (Py.dict string)))) :=
  [("mcq", Some [("response", [[("question_id", "q1")];
                               [("question_id", "q2")]])]);
   ("fib", Some [("response", [[("question_id", "q3")]])]);
   ("tf", None)].

End MoreExamples.

(** * Properties *)

(** ** Dictionaries *)

Section DictFacts.
Context {V : Type}.
Implicit Types (d : Py.dict V) (k : string) (v : V).



Lemma keys_update k (f : V -> V) d : Py.keys (Py.update k f d) = Py.keys d.
Proof.
  induction d as [|[k' v'] d IH]; simpl; [reflexivity|].
  destruct (String.eqb k k'); simpl; [reflexivity | now rewrite IH].
Qed.

Lemma in_set k v d (kv : string * V) :
  In kv (Py.set k v d) -> kv = (k, v) \/ In kv d.
Proof.
  induction d as [|[k' v'] d IH]; simpl.
  - intros [<-|[]]. now left.
  - destruct (String.eqb k k'); simpl; intros [<-|H]; auto.
    destruct (IH H); auto.
Qed.


Lemma keys_set_in k v d k' :
  In k' (Py.keys (Py.set k v d)) -> k' = k \/ In k' (Py.keys d).
Proof.
  unfold Py.keys. intros H. apply in_map_iff in H.
  destruct H as [kv [<- H]]. apply in_set in H. destruct H as [->|H].
  - now left.
  - right. now apply in_map.
Qed.

Lemma keys_set_nodup k v d :
  NoDup (Py.keys d) -> NoDup (Py.keys (Py.set k v d)).
Proof.
  induction d as [|[k' v'] d IH]; simpl; intros Hnd.
  - repeat constructor. tauto.
  - inversion Hnd as [|? ? Hk' Hd]; subst.
    destruct (String.eqb_spec k k') as [->|Hne]; simpl.
    + now constructor.
    + constructor; [|now apply IH].
      intros Hin. apply keys_set_in in Hin. destruct Hin; congruence.
Qed.

(** A property of the entries is kept by an assignment of an entry that has
    it, and holds of what a successful lookup finds. *)
Lemma set_Forall (Q : string * V -> Prop) k v d :
  Forall Q d -> Q (k, v) -> Forall Q (Py.set k v d).
Proof.
  intros Hd Hv. induction Hd as [|[k' v'] d Hx Hd IH]; simpl.
  - now repeat constructor.
  - destruct (String.eqb k k'); constructor; auto.
Qed.

Lemma get_Forall (Q : string * V -> Prop) k d v :
  Forall Q d -> Py.get k d = Some v -> Q (k, v).
Proof.
  induction 1 as [|[k' v'] d Hx Hd IH]; simpl; [discriminate|].
  destruct (String.eqb_spec k k') as [->|_]; [|assumption]. now intros [= <-].
Qed.

Lemma update_Forall (Q : string * V -> Prop) k (f : V -> V) d :
  (forall k' v', Q (k', v') -> Q (k', f v')) ->
  Forall Q d -> Forall Q (Py.update k f d).
Proof.
  intros Hf. induction 1 as [|[k' v'] d Hx Hd IH]; simpl; [constructor|].
  destruct (String.eqb k k'); constructor; auto.
Qed.

End DictFacts.

(** ** Lists without duplicates *)

Section NoDupFacts.
Context {A B : Type}.



End NoDupFacts.

(** ** The stable descending sort *)

Section SortFacts.
Context {A : Type}.
Implicit Types (x : A * Q) (l : list (A * Q)).

Lemma insert_desc_perm x l : Permutation (x :: l) (Py.insert_desc x l).
Proof.
  induction l as [|y l IH]; simpl; [reflexivity|].
  destruct (Py.ltb (snd x) (snd y)); [|reflexivity].
  rewrite perm_swap. now constructor.
Qed.

Lemma sorted_desc_perm l : Permutation l (Py.sorted_desc l).
Proof.
  induction l as [|x l IH]; simpl; [reflexivity|].
  rewrite <- insert_desc_perm. now constructor.
Qed.

Lemma ltb_false (a b : Q) : Py.ltb a b = false <-> (b <= a)%Q.
Proof.
  unfold Py.ltb. rewrite negb_false_iff. apply Qle_bool_iff.
Qed.

Lemma ltb_true (a b : Q) : Py.ltb a b = true -> (a <= b)%Q.
Proof.
  unfold Py.ltb. rewrite negb_true_iff. intros H.
  destruct (Qlt_le_dec a b) as [Hlt|Hle]; [now apply Qlt_le_weak|].
  apply Qle_bool_iff in Hle. congruence.
Qed.

Lemma insert_desc_sorted x l :
  StronglySorted Py.desc l -> StronglySorted Py.desc (Py.insert_desc x l).
Proof.
  induction 1 as [|y l Hl IH Hy]; simpl.
  - repeat constructor.
  - destruct (Py.ltb (snd x) (snd y)) eqn:E.
    + constructor; [assumption|].
      apply (Permutation_Forall (insert_desc_perm x l)).
      constructor; [now apply ltb_true | assumption].
    + apply ltb_false in E. constructor; [now constructor|].
      constructor; [assumption|].
      revert Hy. apply Forall_impl. unfold Py.desc. intros b Hb.
      now apply Qle_trans with (snd y).
Qed.

Lemma sorted_desc_sorted l : StronglySorted Py.desc (Py.sorted_desc l).
Proof.
  induction l as [|x l IH]; simpl; [constructor | now apply insert_desc_sorted].
Qed.

(** An insertion does not disturb the order of the elements already
    placed. *)
Lemma before_insert_keep x y z l :
  Py.before x y l -> Py.before x y (Py.insert_desc z l).
Proof.
  induction l as [|a l IH]; simpl; [tauto|].
  destruct (Py.ltb (snd z) (snd a)); simpl; intros [[Ha Hy]|Hb].
  - left. split; [assumption|].
    apply (Permutation_in _ (insert_desc_perm z l)). now right.
  - right. now apply IH.
  - right. left. now split.
  - right. now right.
Qed.

(** The inserted element lands in front of every element whose key is not
    larger. *)
Lemma before_insert_new x y l :
  In y l -> Py.ltb (snd x) (snd y) = false ->
  Py.before x y (Py.insert_desc x l).
Proof.
  intros Hy Hxy. induction l as [|a l IH]; simpl in *; [tauto|].
  destruct (Py.ltb (snd x) (snd a)) eqn:E; simpl.
  - right. destruct Hy as [->|Hy]; [congruence | now apply IH].
  - left. now split.
Qed.

Lemma sorted_desc_stable x y l :
  Py.before x y l -> (snd y <= snd x)%Q -> Py.before x y (Py.sorted_desc l).
Proof.
  intros Hb Hle. apply ltb_false in Hle.
  induction l as [|a l IH]; simpl in *; [tauto|].
  destruct Hb as [[-> Hy]|Hb].
  - apply before_insert_new; [|assumption].
    now apply (Permutation_in _ (sorted_desc_perm l)).
  - now apply before_insert_keep, IH.
Qed.

End SortFacts.

(** ** The allocator *)

Module AllocatorFacts.
Import Allocator.










End AllocatorFacts.

Module ExactShares.
Import Allocator AllocatorFacts.


















End ExactShares.

(** ** The grouper *)

Module GrouperFacts.
Import Allocator Grouper ExactShares.

Lemma add_configs_from (P : config -> Prop) (cs : list config) :
  forall groups : Py.dict (list config),
  Forall P cs ->
  Forall (group_of P) groups ->
  Forall (group_of P) (fold_left add_config cs groups).
Proof.
  induction cs as [|c cs IH]; intros groups Hall Hinv; simpl; [assumption|].
  inversion Hall as [|? ? Hc Hcs]; subst.
  apply IH; [assumption|]. unfold add_config.
  destruct (Py.get (question_type c) groups) as [old|] eqn:E.
  - apply set_Forall; [assumption|].
    destruct (get_Forall _ _ _ _ Hinv E) as [_ Hold]. simpl in Hold.
    split; simpl; [now destruct old | apply Forall_app; now repeat constructor].
  - apply set_Forall; [assumption|].
    split; simpl; [discriminate | now repeat constructor].
Qed.

Lemma type_groups_from (P : config -> Prop) (question_dist : Py.dict config) :
  Forall P (Py.values question_dist) ->
  Forall (group_of P) (type_groups question_dist).
Proof.
  intros Hall. unfold type_groups. apply add_configs_from; [assumption|constructor].
Qed.












End GrouperFacts.

(** ** Deciding that concrete key lists have no duplicate *)



(** ** The allocator's total *)




(** ** The remainder *)




(** ** The ranking of the combinations *)

(** C6, as stated, fails: ties are not broken by an order on the keys.  The
    same mapping written in two orders gives all four shares the fractional
    part 0.5, ranks the two keys of each run in the order they were inserted,
    and hands the single question to a different combination. *)
Lemma tie_follows_insertion_order :
  let fd1 := Allocator.fractional_distribution 1
               Examples.a_then_b Examples.basic_only Examples.remember_only in
  let fd2 := Allocator.fractional_distribution 1
               Examples.b_then_a Examples.basic_only Examples.remember_only in
  Permutation Examples.a_then_b Examples.b_then_a
  /\ Allocator.sorted_keys fd1 = ["a_basic_remember"; "b_basic_remember"]
  /\ Allocator.sorted_keys fd2 = ["b_basic_remember"; "a_basic_remember"]
  /\ Py.keys (Allocator.calculate_question_distribution 1
                Examples.a_then_b Examples.basic_only Examples.remember_only)
     = ["a_basic_remember"]
  /\ Py.keys (Allocator.calculate_question_distribution 1
                Examples.b_then_a Examples.basic_only Examples.remember_only)
     = ["b_basic_remember"].
Proof.
  repeat split; try reflexivity. apply perm_swap.
Qed.

(** C6, amended: the allocator ranks the combinations by descending
    fractional part and breaks ties by insertion order: the ranking is a
    permutation of the dictionary's entries in descending order of the
    fractional part, and an entry inserted before another whose fractional
    part is not larger is ranked before it. *)
Theorem ranking_is_stable (fd : Py.dict Allocator.entry) (x y : string * Q) :
  Py.before x y (Allocator.keyed fd) ->
  (snd y <= snd x)%Q ->
  Py.before x y (Allocator.ranking fd)
  /\ StronglySorted Py.desc (Allocator.ranking fd)
  /\ Permutation (Allocator.keyed fd) (Allocator.ranking fd).
Proof.
  intros Hb Hle. unfold Allocator.ranking. repeat split.
  - now apply sorted_desc_stable.
  - apply sorted_desc_sorted.
  - apply sorted_desc_perm.
Qed.

Lemma ranking_is_stable_witness :
  let fd := Allocator.fractional_distribution 1
              Examples.a_then_b Examples.basic_only Examples.remember_only in
  Py.before ("a_basic_remember", 1 # 2)%Q ("b_basic_remember", 1 # 2)%Q
    (Allocator.ranking fd)
  /\ StronglySorted Py.desc (Allocator.ranking fd)
  /\ Permutation (Allocator.keyed fd) (Allocator.ranking fd).
Proof.
  apply ranking_is_stable.
  - simpl. left. split; [reflexivity | now left].
  - simpl. discriminate.
Defined.

(** ** Grouping and re-expansion *)




(** ** Normalization *)






(** ** Strings *)

Section StringFacts.
Implicit Types (s t u : string).


Lemma length_append s t :
  String.length (s ++ t) = (String.length s + String.length t)%nat.
Proof. induction s as [|c s IH]; simpl; [reflexivity | now rewrite IH]. Qed.

Lemma append_cancel_l s t u : s ++ t = s ++ u -> t = u.
Proof.
  induction s as [|c s IH]; simpl; [trivial|]. intros [= H]. now apply IH.
Qed.


Lemma prefix_append s t : String.prefix s (s ++ t) = true.
Proof.
  induction s as [|c s IH]; simpl; [now destruct t|].
  destruct (ascii_dec c c); [assumption | congruence].
Qed.

Lemma substring_all s n :
  (String.length s <= n)%nat -> substring 0 n s = s.
Proof.
  revert n. induction s as [|c s IH]; intros [|n]; simpl; try reflexivity; try lia.
  intros H. f_equal. apply IH. lia.
Qed.

End StringFacts.

(** ** Artifact names *)

Module NamingFacts.
Import Naming.




(** [generate_fill_in_blank] and the worker agree on the name. *)
Lemma fib_file_name_agrees chapter lo keys d b :
  file_name "fib" chapter lo keys d b = Some (fib_file_name chapter lo keys d b).
Proof. reflexivity. Qed.

End NamingFacts.




(** ** The shared summary *)

(** C10: [generate_content_summary_sync] returns a string for every input
    and never raises.  When the retrieval raises, the string begins with
    "Error retrieving content for chapter"; when nothing is retrieved ([None]
    or the empty string) it is "No content available for the specified
    chapter."; otherwise it is the content itself when that has at most 2000
    characters, and its first 2000 characters followed by the truncation
    marker when it has more. *)
Theorem content_summary_is_total (query : Type)
    (create_query_body : string -> nat -> Py.outcome query)
    (execute_search : query -> Py.outcome (option string))
    (chapter_id : string) :
  exists summary,
    SummaryHelper.generate_content_summary_sync query create_query_body
      execute_search chapter_id = Py.Returned summary
    /\ match SummaryHelper.retrieve_chapter_chunks query create_query_body
               execute_search chapter_id
               SummaryHelper.default_max_chunks SummaryHelper.default_max_chars
       with
       | Py.Raised _ => String.prefix SummaryHelper.error_prefix summary = true
       | Py.Returned None => summary = SummaryHelper.no_content
       | Py.Returned (Some content) =>
           if String.eqb content "" then summary = SummaryHelper.no_content
           else
             ((String.length content <= 2000)%nat -> summary = content)
             /\ ((2000 < String.length content)%nat ->
                 summary = substring 0 2000 content
                           ++ SummaryHelper.summary_truncated)
       end.
Proof.
  unfold SummaryHelper.generate_content_summary_sync.
  destruct (SummaryHelper.retrieve_chapter_chunks query create_query_body
              execute_search chapter_id _ _) as [[content|]|msg];
    cbv beta iota delta [Py.try_except Py.bind Py.truthy].
  - destruct (String.eqb content ""); cbv beta iota delta [negb].
    + now eexists.
    + destruct (Nat.ltb_spec (Nat.min 2000 (String.length content))
                  (String.length content)) as [Hlt|Hge];
        eexists; (split; [reflexivity|]); split; intros H; try lia.
      * now rewrite Nat.min_l by lia.
      * rewrite Nat.min_r by lia. now apply substring_all.
  - now eexists.
  - eexists. split; [reflexivity|].
    apply prefix_append.
Qed.

(** ** The orchestrator *)

Module OrchestratorFacts.
Import Py Allocator Orchestrator.


Lemma filter_none {A} (f : A -> bool) (l : list A) :
  Forall (fun a => f a = false) l -> filter f l = [].
Proof.
  induction 1 as [|a l Ha Hl IH]; simpl; [reflexivity|]. now rewrite Ha.
Qed.









End OrchestratorFacts.





(** ** Failure of one worker *)

(** C2 fails on the code: with one question of kind mcq and one of kind fib,
    the mcq worker succeeding and the fib worker raising "boom", the request
    fails with the tagged error and writes no per-question event, but the
    history record written on the way out carries the mcq worker's file name
    and its questions. *)
Theorem sibling_items_reach_history :
  let outcome := Orchestrator.generate_questions Examples.fib_fails "source"
                   Examples.request_two_kinds in
  snd outcome
  = Orchestrator.Error500 "Error generating questions: Error in fib: boom"
  /\ In (Orchestrator.HistoryWritten "error" "Error in fib: boom"
           [Some "ch01_basic100_remember100_mcqs.json"]
           [("mcq", Some Examples.sample_data)])
        (fst outcome)
  /\ filter (fun e => match e with
                      | Orchestrator.QuestionLogged _ _ _ => true
                      | Orchestrator.ResponseLogged _ => true
                      | _ => false
                      end) (fst outcome)
     = [].
Proof.
  repeat split. vm_compute. tauto.
Qed.

(** * Further properties of the code *)

(** ** Shape of the allocation *)

Module AllocationShape.
Import Allocator.

Lemma fold_set_keys_nodup {V} (l : list (string * V)) :
  forall d : Py.dict V,
  NoDup (Py.keys d) ->
  NoDup (Py.keys (fold_left (fun acc kv => Py.set (fst kv) (snd kv) acc) l d)).
Proof.
  induction l as [|kv l IH]; intros d Hd; simpl; [assumption|].
  apply IH. now apply keys_set_nodup.
Qed.

Lemma fold_set_Forall {V} (Q : string * V -> Prop) (l : list (string * V)) :
  forall d : Py.dict V,
  Forall Q l -> Forall Q d ->
  Forall Q (fold_left (fun acc kv => Py.set (fst kv) (snd kv) acc) l d).
Proof.
  induction l as [|[k v] l IH]; intros d Hl Hd; simpl; [assumption|].
  inversion Hl; subst. apply IH; [assumption|]. now apply set_Forall.
Qed.

Lemma fractional_distribution_keys_nodup N qd dd bd :
  NoDup (Py.keys (fractional_distribution N qd dd bd)).
Proof. apply fold_set_keys_nodup. constructor. Qed.

Lemma combos_Forall (Q : string * entry -> Prop) N qd dd bd :
  (forall q d b, In q qd -> In d dd -> In b bd -> Q (combo N q d b)) ->
  Forall Q (fractional_distribution N qd dd bd).
Proof.
  intros H. apply fold_set_Forall; [|constructor].
  apply Forall_forall. intros kv Hin. unfold combos in Hin.
  apply in_flat_map in Hin. destruct Hin as [q [Hq Hin]].
  apply in_flat_map in Hin. destruct Hin as [d [Hd Hin]].
  apply in_map_iff in Hin. destruct Hin as [b [<- Hb]]. now apply H.
Qed.

Lemma distribute_keys rem (fd : Py.dict entry) :
  Py.keys (distribute rem fd) = Py.keys fd.
Proof.
  unfold distribute. generalize (firstn (Z.to_nat rem) (sorted_keys fd)).
  intros ks. revert fd. induction ks as [|k ks IH]; intros fd; simpl;
    [reflexivity|]. now rewrite IH, keys_update.
Qed.

Lemma distribute_Forall (Q : string * entry -> Prop) rem (fd : Py.dict entry) :
  (forall k e, Q (k, e) -> Q (k, incr e)) ->
  Forall Q fd -> Forall Q (distribute rem fd).
Proof.
  intros HQ. unfold distribute.
  generalize (firstn (Z.to_nat rem) (sorted_keys fd)).
  intros ks. revert fd. induction ks as [|k ks IH]; intros fd Hfd; simpl;
    [assumption|]. apply IH. now apply update_Forall.
Qed.

Lemma cleanup_keys_nodup (fd : Py.dict entry) :
  NoDup (Py.keys fd) -> NoDup (Py.keys (cleanup fd)).
Proof.
  unfold cleanup, Py.keys. rewrite map_map. simpl.
  induction fd as [|[k e] fd IH]; simpl; intros Hnd; [constructor|].
  inversion Hnd as [|? ? Hk Hfd]; subst.
  destruct (0 <? e_count e); simpl; [|now apply IH].
  constructor; [|now apply IH].
  intros Hin. apply Hk. apply in_map_iff in Hin.
  destruct Hin as [kv [<- Hin]]. apply filter_In in Hin.
  apply in_map. tauto.
Qed.

End AllocationShape.

(** X1: every entry the allocator returns has a positive count, carries
    labels of the three input distributions and sits under the key
    kind_difficulty_level made of its own labels, and no key is returned
    twice. *)
Theorem allocation_is_well_formed (N : Z) (qd dd bd : distribution) :
  let allocation := Allocator.calculate_question_distribution N qd dd bd in
  NoDup (Py.keys allocation)
  /\ Forall (fun kc =>
               0 < Allocator.count (snd kc)
               /\ Grouper.labelled qd dd bd (snd kc)
               /\ fst kc = Allocator.combo_key
                             (Allocator.question_type (snd kc))
                             (Allocator.difficulty (snd kc))
                             (Allocator.blooms_level (snd kc)))
       allocation.
Proof.
  unfold Allocator.calculate_question_distribution.
  set (fd := Allocator.fractional_distribution N qd dd bd).
  split.
  - apply AllocationShape.cleanup_keys_nodup.
    rewrite AllocationShape.distribute_keys.
    apply AllocationShape.fractional_distribution_keys_nodup.
  - set (Q := fun kv : string * Allocator.entry =>
                (In (Allocator.e_question_type (snd kv)) (Py.keys qd)
                 /\ In (Allocator.e_difficulty (snd kv)) (Py.keys dd)
                 /\ In (Allocator.e_blooms_level (snd kv)) (Py.keys bd))
                /\ Notions.keyed_by_labels kv).
    assert (Hfd : Forall Q fd).
    { apply AllocationShape.combos_Forall. intros q d b Hq Hd Hb.
      unfold Q, Notions.keyed_by_labels, Py.keys. simpl.
      repeat split; try reflexivity; now apply in_map. }
    assert (Hdist : Forall Q (Allocator.distribute (Allocator.remainder N fd) fd)).
    { apply AllocationShape.distribute_Forall; [|assumption].
      now intros k [? ? ? ? ?]. }
    unfold Allocator.cleanup.
    induction Hdist as [|[k e] l [Hlab Hkey] Hl IH]; simpl; [constructor|].
    destruct (Z.ltb_spec 0 (Allocator.e_count e)); simpl; [|assumption].
    constructor; [|assumption]. simpl. repeat split; try apply Hlab; assumption.
Qed.

(** ** The extra questions *)

Module Distribution.
Import Allocator Notions.








End Distribution.



(** ** The two allocators *)

Module HelperCountsFacts.
Import Py Allocator HelperCounts.

Section OnValues.
Context {V W : Type} (g : V -> W).







End OnValues.














End HelperCountsFacts.






(** ** Groups of the allocation *)

Module Grouping.
Import Py Allocator Grouper.

Lemma sumZ_app l1 l2 : sumZ (l1 ++ l2) = sumZ l1 + sumZ l2.
Proof. induction l1 as [|x l1 IH]; simpl; lia. Qed.

Lemma sumZ_perm l1 l2 : Permutation l1 l2 -> sumZ l1 = sumZ l2.
Proof. induction 1; simpl; lia. Qed.

Lemma sumZ_concat (L : list (list config)) :
  sumZ (map count (List.concat L)) = sumZ (map total_for_type L).
Proof.
  induction L as [|l L IH]; simpl; [reflexivity|].
  rewrite map_app, sumZ_app, IH. reflexivity.
Qed.

(** Appending to the group found under a key adds one entry to the
    concatenation of the groups. *)
Lemma concat_set_found k c (groups : dict (list config)) cs :
  get k groups = Some cs ->
  Permutation (List.concat (values (set k (cs ++ [c])%list groups)))
    (c :: List.concat (values groups)).
Proof.
  unfold values. induction groups as [|[k' cs'] groups IH]; simpl; [discriminate|].
  destruct (String.eqb k k'); simpl.
  - intros [= ->]. rewrite <- app_assoc. simpl.
    symmetry. apply Permutation_middle.
  - intros H. rewrite (IH H). symmetry. apply Permutation_middle.
Qed.

Lemma concat_set_new k c (groups : dict (list config)) :
  get k groups = None ->
  Permutation (List.concat (values (set k [c] groups)))
    (c :: List.concat (values groups)).
Proof.
  unfold values. induction groups as [|[k' cs'] groups IH]; simpl; [reflexivity|].
  destruct (String.eqb k k'); simpl; [discriminate|].
  intros H. rewrite (IH H). symmetry. apply Permutation_middle.
Qed.

Lemma add_configs_partition (cs : list config) :
  forall groups : dict (list config),
  NoDup (keys groups) ->
  NoDup (keys (fold_left add_config cs groups))
  /\ Permutation (List.concat (values (fold_left add_config cs groups)))
       (cs ++ List.concat (values groups)).
Proof.
  induction cs as [|c cs IH]; intros groups Hnd; simpl; [now split|].
  assert (Hstep : NoDup (keys (add_config groups c))
                  /\ Permutation (List.concat (values (add_config groups c)))
                       (c :: List.concat (values groups))).
  { unfold add_config. destruct (get (question_type c) groups) eqn:E.
    - split; [now apply keys_set_nodup | now apply concat_set_found].
    - split; [now apply keys_set_nodup | now apply concat_set_new]. }
  destruct Hstep as [Hnd' Hperm]. destruct (IH _ Hnd') as [Hnd'' Hperm''].
  split; [assumption|]. rewrite Hperm'', Hperm.
  symmetry. apply Permutation_middle.
Qed.

End Grouping.

(** X7: the grouping by kind is a partition of the allocation: the kinds of
    the groups are distinct, every group is non-empty and holds only entries
    of its own kind, the groups together hold exactly the entries of the
    allocation, and the totals of the groups add up to the total of the
    allocation. *)
Theorem groups_partition_the_allocation (d : Py.dict Allocator.config) :
  let groups := Grouper.type_groups d in
  NoDup (Py.keys groups)
  /\ Forall (Grouper.group_of (fun _ => True)) groups
  /\ Permutation (List.concat (Py.values groups)) (Py.values d)
  /\ Py.sumZ (map Grouper.total_for_type (Py.values groups))
     = Allocator.total_count d.
Proof.
  intros groups.
  destruct (Grouping.add_configs_partition (Py.values d) []) as [Hnd Hperm];
    [constructor|].
  fold (Grouper.type_groups d) in Hnd, Hperm. fold groups in Hnd, Hperm.
  simpl in Hperm. rewrite app_nil_r in Hperm.
  repeat split; try assumption.
  - apply GrouperFacts.type_groups_from. apply Forall_forall. trivial.
  - rewrite <- Grouping.sumZ_concat. unfold Allocator.total_count.
    apply Grouping.sumZ_perm. now apply Permutation_map.
Qed.

(** ** Outcomes of a request *)

Module Outcome.
Import Py Allocator Orchestrator.












End Outcome.







(** ** The fill-in-the-blank generator *)

Module FillInBlankFacts.
Import Py FillInBlank.











(** No combination is kept when every rounded share is at most zero. *)
Lemma question_breakdown_empty num dd bd :
  (forall d b, In d dd -> In b bd ->
     round (inject_Z num * snd d * snd b)%Q <= 0) ->
  question_breakdown num dd bd = [].
Proof.
  intros H. unfold question_breakdown.
  replace (filter _ (rounded num dd bd)) with (@nil (string * specs));
    [reflexivity|].
  symmetry. apply OrchestratorFacts.filter_none. apply Forall_forall.
  intros kv Hin. unfold rounded in Hin.
  apply in_flat_map in Hin. destruct Hin as [d [Hd Hin]].
  apply in_map_iff in Hin. destruct Hin as [b [<- Hb]]. simpl.
  apply Z.ltb_ge. now apply H.
Qed.

End FillInBlankFacts.



(** X12: given a summary and a number of questions other than zero,
    [generate_fill_in_blank] raises, out of [max] over no key, when the
    share of every combination rounds to zero or less; two questions spread
    evenly over two difficulties and two levels are such a request. *)
Theorem fib_raises_when_every_share_rounds_to_zero
    (retrieve : string -> Py.outcome (option string)) (uuid : nat -> string)
    (chapter_id : string) (lo : objectives) (all_keys : list string)
    (num_questions : Z) (dd bd : distribution) (summary : string) :
  num_questions <> 0 ->
  (forall d b, In d dd -> In b bd ->
     FillInBlank.round (inject_Z num_questions * snd d * snd b)%Q <= 0) ->
  FillInBlank.generate_fill_in_blank retrieve uuid chapter_id lo all_keys
    num_questions dd bd (Some summary)
  = Py.Raised FillInBlank.max_error.
Proof.
  intros Hnum Hround. unfold FillInBlank.generate_fill_in_blank.
  rewrite (FillInBlankFacts.question_breakdown_empty _ _ _ Hround).
  simpl. unfold FillInBlank.adjust. simpl.
  destruct num_questions; [congruence | reflexivity | reflexivity].
Qed.

Lemma fib_raises_when_every_share_rounds_to_zero_witness :
  FillInBlank.generate_fill_in_blank (fun _ => Py.Returned None)
    (fun _ => "id") "ch01" LoNone [] 2 Examples.a_then_b Examples.a_then_b
    (Some "summary")
  = Py.Raised FillInBlank.max_error.
Proof.
  apply fib_raises_when_every_share_rounds_to_zero; [discriminate|].
  intros d b [<-|[<-|[]]] [<-|[<-|[]]]; vm_compute; discriminate.
Defined.

(** ** Retrieval and summary together *)

Module SummaryFacts.
Import Py SummaryHelper.

Lemma substring_prefix_of_append n s t :
  (n <= String.length s)%nat -> substring 0 n (s ++ t) = substring 0 n s.
Proof.
  revert n. induction s as [|c s IH]; intros [|n]; simpl; intros H;
    try reflexivity; try lia.
  - now destruct t.
  - f_equal. apply IH. lia.
Qed.

Lemma substring_twice n m s :
  (n <= m)%nat -> substring 0 n (substring 0 m s) = substring 0 n s.
Proof.
  revert n m. induction s as [|c s IH]; intros [|n] [|m] H; simpl;
    try reflexivity; try lia.
  f_equal. apply IH. lia.
Qed.

Lemma length_substring_0 n s :
  String.length (substring 0 n s) = Nat.min n (String.length s).
Proof.
  revert n. induction s as [|c s IH]; intros [|n]; simpl; try reflexivity.
  now rewrite IH.
Qed.

Lemma truthy_length s : truthy s = negb (Nat.eqb (String.length s) 0).
Proof. now destruct s. Qed.

(** The summary made from a retrieved text that is not empty. *)
Lemma summary_after_retrieval (query : Type)
    (create_query_body : string -> nat -> outcome query)
    (execute_search : query -> outcome (option string))
    (chapter_id s : string) :
  retrieve_chapter_chunks query create_query_body execute_search chapter_id
    default_max_chunks default_max_chars = Returned (Some s) ->
  truthy s = true ->
  generate_content_summary_sync query create_query_body execute_search
    chapter_id
  = Returned (if (String.length s <=? 2000)%nat then s
              else substring 0 2000 s ++ summary_truncated).
Proof.
  intros Hr Ht. unfold generate_content_summary_sync. rewrite Hr.
  cbv beta iota delta [bind try_except]. rewrite Ht.
  cbv beta iota zeta delta [negb].
  destruct (Nat.leb_spec (String.length s) 2000) as [Hle|Hgt].
  - rewrite Nat.min_r by lia.
    destruct (Nat.ltb_spec (String.length s) (String.length s)); [lia|].
    now rewrite substring_all.
  - rewrite Nat.min_l by lia.
    destruct (Nat.ltb_spec 2000 (String.length s)); [reflexivity | lia].
Qed.

(** What the retrieval returns for a text found. *)
Lemma retrieval_of_text (query : Type)
    (create_query_body : string -> nat -> outcome query)
    (execute_search : query -> outcome (option string))
    (chapter_id : string) (query_body : query) (text : string)
    (max_chunks max_chars : nat) :
  truthy chapter_id = true ->
  create_query_body chapter_id max_chunks = Returned query_body ->
  execute_search query_body = Returned (Some text) ->
  retrieve_chapter_chunks query create_query_body execute_search chapter_id
    max_chunks max_chars
  = Returned (Some (if truthy text && (max_chars <? String.length text)%nat
                    then substring 0 max_chars text ++ content_truncated
                    else text)).
Proof.
  intros Hc Hq He. unfold retrieve_chapter_chunks. rewrite Hc.
  cbv beta iota delta [negb bind]. rewrite Hq, He.
  now destruct (truthy text && _).
Qed.

(** A retrieval cut at [m >= 2000] characters and marked gives the same
    summary as the whole text. *)
Lemma summary_of_cut m text marker :
  (2000 <= m)%nat -> (m < String.length text)%nat ->
  (0 < String.length marker)%nat ->
  let s := substring 0 m text ++ marker in
  truthy s = true
  /\ (if (String.length s <=? 2000)%nat then s
      else substring 0 2000 s ++ summary_truncated)
     = substring 0 2000 text ++ summary_truncated.
Proof.
  intros Hm Hlen Hmarker s.
  assert (Hs : (m < String.length s)%nat).
  { unfold s. rewrite length_append, length_substring_0. lia. }
  split.
  - rewrite truthy_length. destruct (Nat.eqb_spec (String.length s) 0); [lia|].
    reflexivity.
  - destruct (Nat.leb_spec (String.length s) 2000) as [Hle|Hgt]; [lia|].
    unfold s. rewrite substring_prefix_of_append
      by (rewrite length_substring_0; lia).
    now rewrite substring_twice.
Qed.

End SummaryFacts.

(** X13: for a chapter name that is not empty, whose query is built and
    whose search returns a text that is not empty, the summary is that text
    itself when it has at most 2000 characters and its first 2000
    characters followed by the summary marker otherwise: the cut and the
    marker that [retrieve_chapter_chunks] applies beyond 100000 characters
    never show in the summary. *)
Theorem summary_depends_on_the_retrieved_text_only (query : Type)
    (create_query_body : string -> nat -> Py.outcome query)
    (execute_search : query -> Py.outcome (option string))
    (chapter_id : string) (query_body : query) (text : string) :
  Py.truthy chapter_id = true ->
  create_query_body chapter_id SummaryHelper.default_max_chunks
  = Py.Returned query_body ->
  execute_search query_body = Py.Returned (Some text) ->
  Py.truthy text = true ->
  SummaryHelper.generate_content_summary_sync query create_query_body
    execute_search chapter_id
  = Py.Returned (if (String.length text <=? 2000)%nat then text
                 else substring 0 2000 text ++ SummaryHelper.summary_truncated).
Proof.
  intros Hc Hq He Ht.
  assert (Hr := SummaryFacts.retrieval_of_text query create_query_body
                  execute_search chapter_id query_body text
                  SummaryHelper.default_max_chunks
                  SummaryHelper.default_max_chars Hc Hq He).
  rewrite Ht in Hr. cbv beta iota delta [andb] in Hr.
  destruct (Nat.ltb_spec SummaryHelper.default_max_chars (String.length text))
    as [Hlong|Hshort].
  - assert (Hmax : (2000 <= SummaryHelper.default_max_chars)%nat)
      by (unfold SummaryHelper.default_max_chars; lia).
    destruct (SummaryFacts.summary_of_cut SummaryHelper.default_max_chars text
                SummaryHelper.content_truncated Hmax Hlong) as [Hts Hsum].
    { unfold SummaryHelper.content_truncated. rewrite length_append.
      simpl. lia. }
    cbv zeta in Hts, Hsum.
    rewrite (SummaryFacts.summary_after_retrieval _ _ _ _ _ Hr Hts), Hsum.
    destruct (Nat.leb_spec (String.length text) 2000); [lia | reflexivity].
  - exact (SummaryFacts.summary_after_retrieval _ _ _ _ _ Hr Ht).
Qed.

Lemma summary_depends_on_the_retrieved_text_only_witness :
  SummaryHelper.generate_content_summary_sync unit
    (fun _ _ => Py.Returned tt) (fun _ => Py.Returned (Some "chapter text"))
    "ch01"
  = Py.Returned "chapter text".
Proof.
  apply (summary_depends_on_the_retrieved_text_only unit
           (fun _ _ => Py.Returned tt)
           (fun _ => Py.Returned (Some "chapter text")) "ch01" tt
           "chapter text"); reflexivity.
Defined.

(** ** The audit items *)

Module AuditFacts.
Import Py Audit.

Section Lookup.
Context {V : Type}.

Lemma get_set_same k (v : V) d : get k (set k v d) = Some v.
Proof.
  induction d as [|[k' v'] d IH]; simpl.
  - now rewrite String.eqb_refl.
  - destruct (String.eqb k k') eqn:E; simpl.
    + now rewrite String.eqb_refl.
    + now rewrite E.
Qed.

Lemma get_set_other k k' (v : V) d :
  k' <> k -> get k' (set k v d) = get k' d.
Proof.
  intros Hk. induction d as [|[k0 v0] d IH]; simpl.
  - apply String.eqb_neq in Hk. now rewrite Hk.
  - destruct (String.eqb k k0) eqn:E; simpl.
    + apply String.eqb_eq in E. subst k0.
      apply String.eqb_neq in Hk. now rewrite Hk.
    + destruct (String.eqb k' k0); [reflexivity | exact IH].
Qed.

End Lookup.

Section Items.
Variable json : Type.

(** Merging the metadata: a field of the item stays, another key takes the
    value of its first entry in the metadata. *)
Lemma get_add_metadata k (metadata item : dict (value json)) :
  get k (fold_left (add_metadata json) metadata item)
  = match get k item with
    | Some v => Some v
    | None => get k metadata
    end.
Proof.
  revert item. induction metadata as [|[k' v'] md IH]; intros item; simpl.
  - now destruct (get k item).
  - rewrite IH. unfold add_metadata; simpl.
    destruct (get k' item) as [w|] eqn:Ek'.
    + destruct (get k item) as [u|] eqn:Ek; [reflexivity|].
      destruct (String.eqb_spec k k') as [->|Hne]; [congruence | reflexivity].
    + destruct (String.eqb_spec k k') as [->|Hne].
      * now rewrite get_set_same, Ek'.
      * rewrite get_set_other by assumption.
        now destruct (get k item).
Qed.

(** The fields of the item are the arguments, whatever the metadata. *)
Lemma event_item_fields event_type session_id source_id status timestamp
    tenant_id id data (metadata : dict (value json)) :
  let item := event_item json event_type session_id source_id status
                timestamp tenant_id id data metadata in
  get "PK" item = Some (Str session_id)
  /\ get "SK" item = Some (Str timestamp)
  /\ get "event" item = Some (Str event_type)
  /\ get "status" item = Some (Str status).
Proof.
  unfold event_item. cbv zeta. rewrite !get_add_metadata.
  destruct data; repeat split; reflexivity.
Qed.

End Items.

(** A string of digits holds no underscore. *)
Lemma digits_hold_no_underscore x y :
  NilEmpty.uint_of_string (x ++ "_" ++ y) = None.
Proof.
  induction x as [|c x IH]; simpl in *.
  - now destruct (NilEmpty.uint_of_string y).
  - now rewrite IH.
Qed.

(** [str(n)] for [n >= 0] is the string of the digits of [n]. *)
Lemma str_of_int_digits n :
  0 <= n ->
  exists u, str_of_int n = NilEmpty.string_of_uint u
            /\ Z.to_int n = Decimal.Pos u.
Proof.
  intros Hn. unfold str_of_int. destruct n as [|p|p]; [| |lia].
  - now exists (Decimal.D0 Decimal.Nil).
  - exists (Pos.to_uint p). split; [|reflexivity]. simpl.
    unfold NilZero.string_of_uint.
    generalize (Unsigned.to_uint_nonnil p).
    now destruct (Pos.to_uint p).
Qed.

Lemma str_of_int_parses n :
  0 <= n -> NilEmpty.uint_of_string (str_of_int n) <> None.
Proof.
  intros Hn. destruct (str_of_int_digits n Hn) as (u & -> & _).
  now rewrite NilEmpty.usu.
Qed.

Lemma str_of_int_inj n m :
  0 <= n -> 0 <= m -> str_of_int n = str_of_int m -> n = m.
Proof.
  intros Hn Hm H.
  destruct (str_of_int_digits n Hn) as (u & Hu & Hnu).
  destruct (str_of_int_digits m Hm) as (w & Hw & Hmw).
  rewrite Hu, Hw in H. apply (f_equal NilEmpty.uint_of_string) in H.
  rewrite !NilEmpty.usu in H. injection H as ->.
  apply DecimalZ.to_int_inj. congruence.
Qed.

(** Two strings that end in an underscore and digits agree only when both
    parts agree. *)
Lemma split_at_last_underscore a b d1 d2 :
  NilEmpty.uint_of_string d1 <> None ->
  NilEmpty.uint_of_string d2 <> None ->
  a ++ "_" ++ d1 = b ++ "_" ++ d2 -> a = b /\ d1 = d2.
Proof.
  intros H1 H2. revert b.
  induction a as [|c a IH]; intros [|c' b]; simpl; intros H.
  - injection H as H. now split.
  - injection H as _ H. subst d1.
    exfalso. apply H1. apply (digits_hold_no_underscore b d2).
  - injection H as _ H. subst d2.
    exfalso. apply H2. apply (digits_hold_no_underscore a d1).
  - injection H as -> H. destruct (IH _ H) as [-> ->]. now split.
Qed.

(** The sort key tells the kind and the index. *)
Lemma question_timestamp_inj base k1 k2 i1 i2 :
  question_timestamp base k1 i1 = question_timestamp base k2 i2 ->
  k1 = k2 /\ i1 = i2.
Proof.
  unfold question_timestamp. intros H.
  apply append_cancel_l in H. simpl in H. injection H as H.
  apply split_at_last_underscore in H;
    try (apply str_of_int_parses; lia).
  destruct H as [-> H]. split; [reflexivity|].
  apply str_of_int_inj in H; lia.
Qed.

(** The sort key is longer than the time stamp it starts with. *)
Lemma question_timestamp_fresh base k i :
  question_timestamp base k i <> base.
Proof.
  unfold question_timestamp. intros H.
  apply (f_equal String.length) in H.
  rewrite length_append in H. simpl in H. lia.
Qed.

Section Questions.
Variable json : Type.
Variable dumps : dict json -> string.
Variable uuid : string -> nat -> string.

(** The sort keys of the items of one kind. *)
Lemma question_items_sort_keys tbl session_id source_id kind questions base
    tenant_id :
  map (get "SK")
    (question_items json dumps uuid tbl session_id source_id kind questions
       base tenant_id)
  = if tbl
    then map (fun i => Some (Str (question_timestamp base kind i)))
           (seq 0 (List.length questions))
    else [].
Proof.
  unfold question_items.
  match goal with |- context [flat_map ?f _] => set (F := f) end.
  generalize 0%nat.
  induction questions as [|q qs IH]; intros s; simpl.
  - now destruct tbl.
  - rewrite map_app, IH. unfold F, log_event. destruct tbl; [|reflexivity].
    simpl. f_equal.
    apply (event_item_fields json "QUESTION_GENERATED" session_id source_id
             "success").
Qed.

Lemma question_items_partition_key tbl session_id source_id kind questions
    base tenant_id :
  Forall (fun item => get "PK" item = Some (Str session_id))
    (question_items json dumps uuid tbl session_id source_id kind questions
       base tenant_id).
Proof.
  unfold question_items.
  match goal with |- context [flat_map ?f _] => set (F := f) end.
  generalize 0%nat.
  induction questions as [|q qs IH]; intros s; simpl; [constructor|].
  apply Forall_app. split; [|apply IH].
  unfold F, log_event. destruct tbl; constructor; [|constructor].
  apply (event_item_fields json "QUESTION_GENERATED" session_id source_id
           "success").
Qed.

Lemma kind_sort_keys tbl session_id source_id kind qd base tenant_id x :
  In x (map (get "SK")
          (log_question_events json dumps uuid tbl session_id source_id kind
             qd base tenant_id)) ->
  exists i, x = Some (Str (question_timestamp base kind i)).
Proof.
  unfold log_question_events. destruct qd as [qd|]; [|intros []].
  destruct (_ || _); [intros []|]. cbv zeta.
  rewrite question_items_sort_keys. destruct tbl; [|intros []].
  intros H. apply in_map_iff in H. destruct H as (i & <- & _). now exists i.
Qed.

Lemma kind_sort_keys_nodup tbl session_id source_id kind qd base tenant_id :
  NoDup (map (get "SK")
           (log_question_events json dumps uuid tbl session_id source_id kind
              qd base tenant_id)).
Proof.
  unfold log_question_events. destruct qd as [qd|]; [|constructor].
  destruct (_ || _); [constructor|]. cbv zeta.
  rewrite question_items_sort_keys. destruct tbl; [|constructor].
  apply Finite.Injective_map_NoDup; [|apply seq_NoDup].
  intros i j [= H]. now apply question_timestamp_inj in H.
Qed.

Lemma all_sort_keys tbl session_id source_id d base tenant_id x :
  In x (map (get "SK")
          (log_all_question_events json dumps uuid tbl session_id source_id d
             base tenant_id)) ->
  exists k i, In k (keys d) /\ x = Some (Str (question_timestamp base k i)).
Proof.
  unfold log_all_question_events.
  induction d as [|[k qd] d IH]; simpl; [intros []|].
  rewrite map_app, in_app_iff. intros [H|H].
  - apply kind_sort_keys in H. destruct H as [i ->]. exists k, i. auto.
  - destruct (IH H) as (k' & i & Hk & ->). exists k', i. auto.
Qed.

End Questions.
End AuditFacts.

(** X14: [log_event] never lets the metadata overwrite a field of the item:
    looking a key up in the item gives the field the item had before the
    metadata were merged (the ten fixed fields and the data) and, for another
    key only, the value of the metadata; so the partition key, the sort key,
    the event and the status are always the arguments of the call. *)
Theorem metadata_never_overwrites_event_fields (json : Type)
    (event_type session_id source_id status timestamp tenant_id id : string)
    (data : option string) (metadata : Py.dict (Audit.value json)) :
  let item := Audit.event_item json event_type session_id source_id status
                timestamp tenant_id id data metadata in
  (forall key,
     Py.get key item
     = match Py.get key
               (Audit.event_item json event_type session_id source_id status
                  timestamp tenant_id id data []) with
       | Some v => Some v
       | None => Py.get key metadata
       end)
  /\ Py.get "PK" item = Some (Audit.Str session_id)
  /\ Py.get "SK" item = Some (Audit.Str timestamp)
  /\ Py.get "event" item = Some (Audit.Str event_type)
  /\ Py.get "status" item = Some (Audit.Str status).
Proof.
  cbv zeta. split; [|apply AuditFacts.event_item_fields].
  intros key. unfold Audit.event_item. cbv zeta.
  now rewrite AuditFacts.get_add_metadata.
Qed.

(** X15: the question events of a request never overwrite one another or
    the response event: over the kinds of [all_question_data] (a dictionary,
    so its keys are distinct) the items handed to [put_item] have pairwise
    distinct sort keys, none of them is the time stamp of the response
    event, and all of them have the session as partition key. *)
Theorem question_events_have_distinct_sort_keys (json : Type)
    (dumps : Py.dict json -> string) (uuid : string -> nat -> string)
    (events_table : bool) (session_id source_id : string)
    (all_question_data :
       Py.dict (option (Py.dict (list (Py.dict json)))))
    (timestamp_base tenant_id : string) :
  NoDup (Py.keys all_question_data) ->
  let items :=
    Audit.log_all_question_events json dumps uuid events_table session_id
      source_id all_question_data timestamp_base tenant_id in
  NoDup (map (Py.get "SK") items)
  /\ ~ In (Some (Audit.Str timestamp_base)) (map (Py.get "SK") items)
  /\ Forall (fun item => Py.get "PK" item = Some (Audit.Str session_id))
       items.
Proof.
  intros Hnd. cbv zeta. split; [|split].
  - unfold Audit.log_all_question_events.
    induction all_question_data as [|[k qd] d IH]; simpl; [constructor|].
    inversion Hnd as [|? ? Hk Hd]; subst. rewrite map_app.
    apply NoDup_app; [apply AuditFacts.kind_sort_keys_nodup | now apply IH |].
    intros x Hx Hy. apply AuditFacts.kind_sort_keys in Hx.
    destruct Hx as [i ->].
    apply (AuditFacts.all_sort_keys json dumps uuid) in Hy.
    destruct Hy as (k' & j & Hk' & [= H]).
    apply AuditFacts.question_timestamp_inj in H. destruct H as [-> _].
    contradiction.
  - intros H. apply AuditFacts.all_sort_keys in H.
    destruct H as (k & i & _ & [= H]). symmetry in H.
    now apply AuditFacts.question_timestamp_fresh in H.
  - unfold Audit.log_all_question_events.
    induction all_question_data as [|[k qd] d IH]; simpl; [constructor|].
    inversion Hnd; subst. apply Forall_app. split; [|now apply IH].
    unfold Audit.log_question_events. destruct qd as [qd|]; [|constructor].
    destruct (_ || _); [constructor|].
    apply AuditFacts.question_items_partition_key.
Qed.

Lemma question_events_have_distinct_sort_keys_witness :
  let items :=
    Audit.log_all_question_events string (fun _ => "{}")
      (fun kind _ => kind) true "session" "source" MoreExamples.audited
      "2024-01-01T00:00:00" "tenant" in
  NoDup (map (Py.get "SK") items)
  /\ ~ In (Some (Audit.Str "2024-01-01T00:00:00")) (map (Py.get "SK") items)
  /\ Forall (fun item => Py.get "PK" item = Some (Audit.Str "session"))
       items.
Proof.
  apply (question_events_have_distinct_sort_keys string (fun _ => "{}")
           (fun kind _ => kind) true "session" "source" MoreExamples.audited
           "2024-01-01T00:00:00" "tenant").
  unfold MoreExamples.audited, Py.keys. simpl.
  repeat constructor; simpl; intuition discriminate.
Defined.

(** ** The length of the summary *)

(** X16: whenever the retrieval returns, with content or without, the
    summary handed to the workers is at most 2000 characters followed by
    the truncation marker. *)
Theorem summary_length_is_bounded (query : Type)
    (create_query_body : string -> nat -> Py.outcome query)
    (execute_search : query -> Py.outcome (option string))
    (chapter_id : string) (chapter_content : option string) :
  SummaryHelper.retrieve_chapter_chunks query create_query_body execute_search
    chapter_id SummaryHelper.default_max_chunks
    SummaryHelper.default_max_chars = Py.Returned chapter_content ->
  exists summary,
    SummaryHelper.generate_content_summary_sync query create_query_body
      execute_search chapter_id = Py.Returned summary
    /\ (String.length summary
        <= 2000 + String.length SummaryHelper.summary_truncated)%nat.
Proof.
  intros Hr.
  assert (Hno : (String.length SummaryHelper.no_content
                 <= 2000 + String.length SummaryHelper.summary_truncated)%nat).
  { unfold SummaryHelper.no_content, SummaryHelper.summary_truncated.
    rewrite length_append. simpl String.length. lia. }
  destruct chapter_content as [s|].
  - destruct (Py.truthy s) eqn:Ht.
    + rewrite (SummaryFacts.summary_after_retrieval _ _ _ _ _ Hr Ht).
      eexists. split; [reflexivity|].
      destruct (Nat.leb_spec (String.length s) 2000); [lia|].
      rewrite length_append, SummaryFacts.length_substring_0. lia.
    + exists SummaryHelper.no_content. split; [|exact Hno].
      unfold SummaryHelper.generate_content_summary_sync. rewrite Hr.
      cbv beta iota delta [Py.bind Py.try_except]. now rewrite Ht.
  - exists SummaryHelper.no_content. split; [|exact Hno].
    unfold SummaryHelper.generate_content_summary_sync. now rewrite Hr.
Qed.

Lemma summary_length_is_bounded_witness :
  exists summary,
    SummaryHelper.generate_content_summary_sync unit
      (fun _ _ => Py.Returned tt) (fun _ => Py.Returned None) "ch02"
    = Py.Returned summary
    /\ (String.length summary
        <= 2000 + String.length SummaryHelper.summary_truncated)%nat.
Proof.
  apply (summary_length_is_bounded unit (fun _ _ => Py.Returned tt)
           (fun _ => Py.Returned None) "ch02" None).
  reflexivity.
Defined.
